(** * GPIO service client (src/gpio/client.ts)

    A shallow embedding of [modules.GPIOClient] and the properties of its
    read path (bitmask decoding) and write path (command framing).

    Numbers are the integer-valued TypeScript numbers, embedded in [Z] with
    the 32-bit coercions of the bit operators written out.  The client, its
    two register caches and the command channel form an explicit state that
    every method threads. *)

From Stdlib Require Import ZArith Lia Bool String Ascii.
From stdpp Require Import base option list.

Local Open Scope Z_scope.

(** ** TypeScript integer operators *)

Module JS.

(** [ToInt32]: wrap to the signed 32-bit range. *)
Definition ToInt32 (x : Z) : Z := (x + 2 ^ 31) mod 2 ^ 32 - 2 ^ 31.

(** [ToUint32]: wrap to the unsigned 32-bit range. *)
Definition ToUint32 (x : Z) : Z := x mod 2 ^ 32.

(** [x >> n]: both operands are coerced, the count is taken modulo 32. *)
Definition sar (x n : Z) : Z :=
  Z.shiftr (ToInt32 x) (Z.land (ToUint32 n) 31).

(** [x & y]. *)
Definition band (x y : Z) : Z := Z.land (ToInt32 x) (ToInt32 y).

(** [x % y]: the remainder takes the sign of the dividend. *)
Definition rem (x y : Z) : Z := Z.rem x y.

End JS.

(** ** Buffers *)

(** A [Buffer] is a byte array; [buf[i]] reads 0 outside the array and
    [buf[i] = v] keeps the low eight bits of [v] and does nothing outside
    the array. *)
Abbreviation Buffer := (list Z).

Definition createBuffer (size : nat) : Buffer := replicate size 0.

Definition Buffer_length (buf : Buffer) : Z := Z.of_nat (length buf).

Definition getByte (buf : Buffer) (i : Z) : Z :=
  if (0 <=? i) && (i <? Buffer_length buf)
  then default 0 (buf !! Z.to_nat i)
  else 0.

Definition setByte (buf : Buffer) (i v : Z) : Buffer :=
  if 0 <=? i then <[Z.to_nat i := v mod 256]> buf else buf.

(** ** Packets *)

(** [jacdac.GPIOCmd]: the service's command opcodes. *)
Inductive GPIOCmd : Type :=
| Configure
| PinInfo
| PinByLabel
| PinByHwPin.

(** Modelled from the spec: [jacdac.JDPacket], which is not part of the
    sources at hand.  A command frame is an opcode and its payload bytes. *)
Record JDPacket : Type := mkJDPacket {
  service_command : GPIOCmd;
  pkt_data : Buffer
}.

(** [jacdac.JDPacket.from(cmd, buf)]. *)
Definition JDPacket_from (cmd : GPIOCmd) (buf : Buffer) : JDPacket :=
  mkJDPacket cmd buf.

(** ** Register clients *)

(** Modelled from the spec: [jacdac.RegisterClient], which is not part of
    the sources at hand.  The spec describes it as a single-slot cache with
    a ready flag: [reg_data] is the last payload received for the register
    ([None] until one arrives), [packFormat] decodes a payload into the
    tuple of field values, [isConst] records the [Const] flag, and [waits]
    counts the blocking reads (suspensions) the register has been through. *)
Record RegisterClient (T : Type) : Type := mkRegisterClient {
  packFormat : Buffer -> list T;
  isConst : bool;
  reg_data : option Buffer;
  waits : nat
}.

Arguments mkRegisterClient {T} _ _ _ _.
Arguments packFormat {T} _ _.
Arguments isConst {T} _.
Arguments reg_data {T} _.
Arguments waits {T} _.

(** What the bus does while a caller is suspended on a register: the
    device's next report arrives [after] milliseconds with [payload], or
    the device stays silent. *)
Inductive delivery : Type :=
| Report (after : Z) (payload : Buffer)
| Silent.

(** How a blocking wait ends: the caller resumes with the register's tuple
    of values, or stays suspended for ever. *)
Inductive resumed (T : Type) : Type :=
| Values (vs : list T) (r : RegisterClient T)
| Suspended (r : RegisterClient T).

Arguments Values {T} _ _.
Arguments Suspended {T} _.

Section RegisterClient.
Context {T : Type}.

Definition hasValues (r : RegisterClient T) : bool :=
  match reg_data r with Some _ => true | None => false end.

(** The tuple is empty as long as nothing was received. *)
Definition values (r : RegisterClient T) : list T :=
  match reg_data r with
  | Some payload => packFormat r payload
  | None => []
  end.

Definition entered_wait (r : RegisterClient T) : RegisterClient T :=
  mkRegisterClient (packFormat r) (isConst r) (reg_data r) (S (waits r)).

Definition received (payload : Buffer) (r : RegisterClient T)
  : RegisterClient T :=
  mkRegisterClient (packFormat r) (isConst r) (Some payload) (waits r).

Definition in_time (timeOut : option Z) (after : Z) : bool :=
  match timeOut with
  | Some t => after <=? t
  | None => true
  end.

(** Modelled from the spec: [RegisterClient.pauseUntilValues(timeOut?)].
    A register that has a value returns it at once, without suspending.
    Otherwise the caller is suspended until the store delivers a value or
    the timeout elapses; on timeout it resumes with no value, and without
    a timeout it blocks until the register has a value. *)
Definition pauseUntilValues (timeOut : option Z) (bus : delivery)
    (r : RegisterClient T) : resumed T :=
  if hasValues r then Values (values r) r
  else
    let r := entered_wait r in
    match bus with
    | Report after payload =>
        if in_time timeOut after
        then let r := received payload r in Values (values r) r
        else Values (values r) r
    | Silent =>
        match timeOut with
        | Some _ => Values (values r) r
        | None => Suspended r
        end
    end.

End RegisterClient.

(** ** The client *)

(** The client with what it inherits from [jacdac.SensorClient]: whether
    the connection is started, whether the reading register streams, the
    reading timeout and the reading register; [sent] is the log of the
    commands handed to the transport, oldest first. *)
Record GPIOClient : Type := mkGPIOClient {
  role : string;
  started : bool;
  streaming : bool;
  readingTimeout : Z;
  _reading : RegisterClient Buffer;
  _numPins : RegisterClient Z;
  sent : list JDPacket
}.

(** A method call returns a value, blocks for ever on a register, or
    fails because the packing collaborator rejected an argument: the
    method catches nothing, so the packer's error reaches its caller.  Each
    way the client is left in some state. *)
Inductive outcome (A : Type) : Type :=
| Returned (a : A) (c : GPIOClient)
| Blocked (c : GPIOClient)
| Rejected (c : GPIOClient).

Arguments Returned {A} _ _.
Arguments Blocked {A} _.
Arguments Rejected {A} _.

Definition final {A} (o : outcome A) : GPIOClient :=
  match o with
  | Returned _ c | Blocked c | Rejected c => c
  end.

Definition returned {A} (o : outcome A) : bool :=
  match o with
  | Returned _ _ => true
  | Blocked _ | Rejected _ => false
  end.

Definition M (A : Type) : Type := GPIOClient -> outcome A.

Definition ret {A} (a : A) : M A := fun c => Returned a c.

Definition bind {A B} (m : M A) (k : A -> M B) : M B :=
  fun c =>
    match m c with
    | Returned a c' => k a c'
    | Blocked c' => Blocked c'
    | Rejected c' => Rejected c'
    end.

Declare Scope client_scope.
Delimit Scope client_scope with client.
Bind Scope client_scope with M.

Notation "x <- m ;; k" := (bind m (fun x => k))
  (at level 20, m at level 99, k at level 200, only parsing) : client_scope.
Notation "m ;; k" := (bind m (fun _ => k))
  (at level 100, k at level 200, only parsing, right associativity)
  : client_scope.

Local Open Scope client_scope.

Definition with_started (b : bool) (c : GPIOClient) : GPIOClient :=
  mkGPIOClient (role c) b (streaming c) (readingTimeout c)
    (_reading c) (_numPins c) (sent c).

Definition with_streaming (b : bool) (c : GPIOClient) : GPIOClient :=
  mkGPIOClient (role c) (started c) b (readingTimeout c)
    (_reading c) (_numPins c) (sent c).

Definition with_reading (r : RegisterClient Buffer) (c : GPIOClient)
  : GPIOClient :=
  mkGPIOClient (role c) (started c) (streaming c) (readingTimeout c)
    r (_numPins c) (sent c).

Definition with_numPins (r : RegisterClient Z) (c : GPIOClient)
  : GPIOClient :=
  mkGPIOClient (role c) (started c) (streaming c) (readingTimeout c)
    (_reading c) r (sent c).

Definition with_sent (l : list JDPacket) (c : GPIOClient) : GPIOClient :=
  mkGPIOClient (role c) (started c) (streaming c) (readingTimeout c)
    (_reading c) (_numPins c) l.

(** Modelled from the spec: [Client.start], [SensorClient.setStreaming] and
    [Client.sendCommand], which are not part of the sources at hand.
    Starting and enabling streaming are idempotent switches; a command is
    handed to the transport in call order and nothing is awaited. *)
Definition start : M unit := fun c => Returned tt (with_started true c).

Definition setStreaming (on : bool) : M unit :=
  fun c => Returned tt (with_streaming on c).

Definition sendCommand (pkt : JDPacket) : M unit :=
  fun c => Returned tt (with_sent (sent c ++ [pkt]) c).

Definition this_readingTimeout : M Z := fun c => Returned (readingTimeout c) c.

Definition reading_pauseUntilValues (timeOut : option Z) (bus : delivery)
  : M (list Buffer) :=
  fun c =>
    match pauseUntilValues timeOut bus (_reading c) with
    | Values vs r => Returned vs (with_reading r c)
    | Suspended r => Blocked (with_reading r c)
    end.

Definition numPins_pauseUntilValues (timeOut : option Z) (bus : delivery)
  : M (list Z) :=
  fun c =>
    match pauseUntilValues timeOut bus (_numPins c) with
    | Values vs r => Returned vs (with_numPins r c)
    | Suspended r => Blocked (with_numPins r c)
    end.

(** [state()]: [values[0]] is [None] when the tuple has no first field. *)
Definition state (bus : delivery) : M (option Buffer) :=
  setStreaming true ;;
  timeOut <- this_readingTimeout ;;
  values <- reading_pauseUntilValues (Some timeOut) bus ;;
  ret (values !! 0%nat).

(** [digitalRead(pin)]. *)
Definition digitalRead (bus : delivery) (pin : Z) : M bool :=
  buf <- state bus ;;
  match buf with
  | None => ret false
  | Some buf =>
      if pin <? 0 then ret false
      else
        let byteIndex := JS.sar pin 3 in
        if byteIndex >=? Buffer_length buf then ret false
        else
          let bitIndex := JS.rem pin 8 in
          ret (JS.band (JS.sar (getByte buf byteIndex) bitIndex) 1 =? 1)
  end.

(** ** Packing of string arguments *)

(** Modelled from the spec: the packing collaborator behind
    [jacdac.JDPacket.jdpacked], which is not part of the sources at hand.
    A packed string argument is variable-length: the payload is the
    string in UTF-8 and nothing else.  The characters of a label are the
    code points a [string] holds, 0 to 255: below 128 a character is one
    byte, from 128 on it is a lead byte and a continuation byte. *)
Definition utf8_bytes (a : ascii) : Buffer :=
  let code := Z.of_N (N_of_ascii a) in
  if code <? 128 then [code]
  else [192 + code / 64; 128 + code mod 64].

Definition jdpack_string (s : string) : Buffer :=
  flat_map utf8_bytes (list_ascii_of_string s).



(** Modelled from the spec: the packer rejects an oversized label.  A
    label is oversized when its packed form is longer than the payload of
    a frame, [max_payload] bytes. *)
Definition jdpack_accepts (max_payload : nat) (label : string) : bool :=
  (length (jdpack_string label) <=? max_payload)%nat.

Section Client.

(** The members of [jacdac.GPIOMode] the client names; the enumeration is
    declared outside the sources at hand, its members are numbers. *)
Variables GPIOMode_OutputHigh GPIOMode_OutputLow : Z.

(** [jacdac.GPIORegPack.State] and [jacdac.GPIORegPack.NumPins], as the
    decoders they select. *)
Variable GPIORegPack_State : Buffer -> list Buffer.
Variable GPIORegPack_NumPins : Buffer -> list Z.

(** The reading timeout a sensor client starts with. *)
Variable default_readingTimeout : Z.

(** Which labels the packing collaborator accepts (it rejects malformed
    or oversized arguments; the test itself is outside this client). *)
Variable packable : string -> bool.

(** [constructor(role)]: the reading register comes from the sensor
    client, [_numPins] is added with the [Const] flag. *)
Definition constructor (role : string) : GPIOClient :=
  mkGPIOClient role false false default_readingTimeout
    (mkRegisterClient GPIORegPack_State false None 0)
    (mkRegisterClient GPIORegPack_NumPins true None 0)
    [].

(** [numPins()]. *)
Definition numPins (bus : delivery) : M (option Z) :=
  start ;;
  values <- numPins_pauseUntilValues None bus ;;
  ret (values !! 0%nat).

(** [configure(pin, mode)]. *)
Definition configure (bus : delivery) (pin mode : Z) : M unit :=
  start ;;
  numPins_pauseUntilValues None bus ;;
  let buf := createBuffer 2 in
  let buf := setByte buf 0 pin in
  let buf := setByte buf 1 mode in
  sendCommand (JDPacket_from Configure buf).

(** [digitalWrite(pin, high)]. *)
Definition digitalWrite (bus : delivery) (pin : Z) (high : bool) : M unit :=
  configure bus pin
    (if high then GPIOMode_OutputHigh else GPIOMode_OutputLow).

(** [requestPinInfo(pin)]. *)
Definition requestPinInfo (bus : delivery) (pin : Z) : M unit :=
  start ;;
  numPins_pauseUntilValues None bus ;;
  let buf := createBuffer 1 in
  let buf := setByte buf 0 pin in
  sendCommand (JDPacket_from PinInfo buf).

(** Modelled from the spec: [jacdac.JDPacket.jdpacked] at the format of
    [GPIOCmdPack.PinByLabel], one string argument.  When packing fails
    there is no packet. *)
Definition jdpacked (cmd : GPIOCmd) (label : string) : option JDPacket :=
  if packable label
  then Some (JDPacket_from cmd (jdpack_string label))
  else None.

(** [requestPinByLabel(label)]: the packet is built before [sendCommand]
    is entered, so a label that cannot be packed sends nothing. *)
Definition requestPinByLabel (bus : delivery) (label : string) : M unit :=
  start ;;
  numPins_pauseUntilValues None bus ;;
  match jdpacked PinByLabel label with
  | Some pkt => sendCommand pkt
  | None => fun c => Rejected c
  end.

(** [requestPinByHwPin(hwPin)]. *)
Definition requestPinByHwPin (bus : delivery) (hwPin : Z) : M unit :=
  start ;;
  numPins_pauseUntilValues None bus ;;
  let buf := createBuffer 1 in
  let buf := setByte buf 0 hwPin in
  sendCommand (JDPacket_from PinByHwPin buf).

(** Repeated calls of [numPins()], one bus behaviour per call. *)
Fixpoint numPins_repeat (buses : list delivery) : M (list (option Z)) :=
  match buses with
  | [] => ret []
  | bus :: buses =>
      n <- numPins bus ;;
      ns <- numPins_repeat buses ;;
      ret (n :: ns)
  end.

End Client.

(** ** Statements in the words of the specification *)

(** Byte [i] of a bitmask, if the bitmask has one. *)
Definition byte_of (buf : Buffer) (i : Z) : option Z :=
  if i <? 0 then None else buf !! Z.to_nat i.

(** The result of [digitalRead] as the specification words it, given what
    [state()] returned: false when the bitmask is absent, [pin < 0], or
    [pin >> 3] exceeds the bitmask length; otherwise bit [pin % 8] of byte
    [pin >> 3] of the bitmask, where a byte the bitmask does not have has
    no bit set. *)
Definition digitalRead_spec (bitmask : option Buffer) (pin : Z) : bool :=
  match bitmask with
  | None => false
  | Some buf =>
      if (pin <? 0) || (Z.of_nat (length buf) <? JS.sar pin 3)
      then false
      else Z.testbit (default 0 (byte_of buf (JS.sar pin 3))) (JS.rem pin 8)
  end.

(** The connectivity gate resolves: [_numPins] has a value already, or the
    device reports one while the caller waits. *)
Definition numPins_known (bus : delivery) (c : GPIOClient) : bool :=
  hasValues (_numPins c) ||
  match bus with Report _ _ => true | Silent => false end.


(** A register once the caller has resumed from a wait without timeout. *)
Definition resumed_register {T} (bus : delivery) (r : RegisterClient T)
  : RegisterClient T :=
  if hasValues r then r
  else match bus with
       | Report _ payload => received payload (entered_wait r)
       | Silent => entered_wait r
       end.

(** The client once the connectivity gate has been passed. *)
Definition gated (bus : delivery) (c : GPIOClient) : GPIOClient :=
  with_numPins (resumed_register bus (_numPins c)) (with_started true c).

(** ** A sample client

    The client [gpio1] of the source, with sample values for what the
    sources at hand leave open: the two register formats (the whole payload
    as one buffer; one unsigned byte), the mode members, a reading timeout
    and the payload of a frame, 236 bytes. *)

Module Sample.

Definition unpack_bytes (payload : Buffer) : list Buffer := [payload].

Definition unpack_u8 (payload : Buffer) : list Z :=
  match payload with
  | [] => []
  | b :: _ => [b]
  end.

Definition OutputHigh : Z := 18.
Definition OutputLow : Z := 34.

Definition JD_SERIAL_MAX_PAYLOAD_SIZE : nat := 236.

Definition fits (label : string) : bool :=
  jdpack_accepts JD_SERIAL_MAX_PAYLOAD_SIZE label.


Definition gpio1 : GPIOClient :=
  constructor unpack_bytes unpack_u8 500 "gpio1".

End Sample.

(** ** Sessions

    The methods of the client called one after another, each with what
    the bus does during its wait. *)

Inductive method : Type :=
| CallState
| CallDigitalRead (pin : Z)
| CallNumPins
| CallConfigure (pin mode : Z)
| CallDigitalWrite (pin : Z) (high : bool)
| CallRequestPinInfo (pin : Z)
| CallRequestPinByLabel (label : string)
| CallRequestPinByHwPin (hwPin : Z).

(** What a call hands back to its caller, if it returns. *)
Definition value_of {A} (o : outcome A) : option A :=
  match o with
  | Returned a _ => Some a
  | Blocked _ | Rejected _ => None
  end.

(** The methods that read the state register. *)
Definition reads_state (m : method) : bool :=
  match m with
  | CallState | CallDigitalRead _ => true
  | _ => false
  end.

Section Session.

Variables GPIOMode_OutputHigh GPIOMode_OutputLow : Z.
Variable packable : string -> bool.

(** One call, its result dropped. *)
Definition call_method (bus : delivery) (m : method) : M unit :=
  match m with
  | CallState => state bus ;; ret tt
  | CallDigitalRead pin => digitalRead bus pin ;; ret tt
  | CallNumPins => numPins bus ;; ret tt
  | CallConfigure pin mode => configure bus pin mode
  | CallDigitalWrite pin high =>
      digitalWrite GPIOMode_OutputHigh GPIOMode_OutputLow bus pin high
  | CallRequestPinInfo pin => requestPinInfo bus pin
  | CallRequestPinByLabel label => requestPinByLabel packable bus label
  | CallRequestPinByHwPin hwPin => requestPinByHwPin bus hwPin
  end.

(** A session runs its calls in order and stops at the first call that
    does not return. *)
Fixpoint run_session (calls : list (delivery * method)) : M unit :=
  match calls with
  | [] => ret tt
  | (bus, m) :: calls => call_method bus m ;; run_session calls
  end.

(** The frame a call is meant to send, if it is a command. *)
Definition frame_of (m : method) : option JDPacket :=
  match m with
  | CallState | CallDigitalRead _ | CallNumPins => None
  | CallConfigure pin mode =>
      Some (JDPacket_from Configure [pin mod 256; mode mod 256])
  | CallDigitalWrite pin high =>
      Some (JDPacket_from Configure
              [pin mod 256;
               (if high then GPIOMode_OutputHigh else GPIOMode_OutputLow)
                 mod 256])
  | CallRequestPinInfo pin => Some (JDPacket_from PinInfo [pin mod 256])
  | CallRequestPinByLabel label =>
      Some (JDPacket_from PinByLabel (jdpack_string label))
  | CallRequestPinByHwPin hwPin =>
      Some (JDPacket_from PinByHwPin [hwPin mod 256])
  end.

Fixpoint frames_of (calls : list (delivery * method)) : list JDPacket :=
  match calls with
  | [] => []
  | (_, m) :: calls =>
      match frame_of m with
      | Some frame => frame :: frames_of calls
      | None => frames_of calls
      end
  end.

(** Every label of the session is one the packing collaborator accepts. *)
Definition labels_packable (calls : list (delivery * method)) : bool :=
  forallb
    (fun bm =>
       match snd bm with
       | CallRequestPinByLabel label => packable label
       | _ => true
       end)
    calls.

End Session.

(** ** Bitmasks as integers and well-formed frames *)

(** The integer a bitmask spells, least significant byte first. *)
Fixpoint le_value (buf : Buffer) : Z :=
  match buf with
  | [] => 0
  | b :: rest => b + 256 * le_value rest
  end.

Definition is_byte (b : Z) : Prop := 0 <= b < 256.

(** A frame whose payload is bytes, of the length its opcode asks for. *)
Definition wf_packet (pkt : JDPacket) : Prop :=
  Forall is_byte (pkt_data pkt) /\
  match service_command pkt with
  | Configure => length (pkt_data pkt) = 2%nat
  | PinInfo | PinByHwPin => length (pkt_data pkt) = 1%nat
  | PinByLabel => True
  end.

(** * Properties *)

(** Settle the comparisons of the goal that linear arithmetic decides. *)
Ltac settle_comparisons :=
  repeat match goal with
  | |- context [?a <? ?b] =>
      first [ replace (a <? b) with true by (symmetry; apply Z.ltb_lt; lia)
            | replace (a <? b) with false by (symmetry; apply Z.ltb_ge; lia) ]
  | |- context [?a <=? ?b] =>
      first [ replace (a <=? b) with true by (symmetry; apply Z.leb_le; lia)
            | replace (a <=? b) with false by (symmetry; apply Z.leb_gt; lia) ]
  end.

(** ** The integer operators *)

Module JSFacts.

Lemma ToInt32_eqm (x : Z) : JS.ToInt32 x mod 2 ^ 32 = x mod 2 ^ 32.
Proof.
  unfold JS.ToInt32.
  rewrite Zminus_mod, Z.mod_mod by lia.
  rewrite <- Zminus_mod. f_equal. lia.
Qed.

(** The coercion keeps the low 32 bits. *)
Lemma ToInt32_testbit (x i : Z) :
  0 <= i < 32 -> Z.testbit (JS.ToInt32 x) i = Z.testbit x i.
Proof.
  intros Hi.
  rewrite <- (Z.mod_pow2_bits_low (JS.ToInt32 x) 32 i) by lia.
  rewrite <- (Z.mod_pow2_bits_low x 32 i) by lia.
  now rewrite ToInt32_eqm.
Qed.

Lemma ToInt32_small (x : Z) : - 2 ^ 31 <= x < 2 ^ 31 -> JS.ToInt32 x = x.
Proof.
  intros Hx. unfold JS.ToInt32.
  rewrite Z.mod_small; lia.
Qed.

Lemma shift_count (n : Z) : 0 <= n < 32 -> Z.land (JS.ToUint32 n) 31 = n.
Proof.
  intros Hn. unfold JS.ToUint32.
  rewrite Z.mod_small by lia.
  change 31 with (Z.ones 5).
  rewrite Z.land_ones by lia.
  apply Z.mod_small. lia.
Qed.

Lemma sar_3 (pin : Z) : 0 <= pin < 2 ^ 31 -> JS.sar pin 3 = pin / 8.
Proof.
  intros Hp. unfold JS.sar.
  rewrite ToInt32_small, shift_count by lia.
  now rewrite Z.shiftr_div_pow2 by lia.
Qed.

Lemma rem_8 (pin : Z) : 0 <= pin -> JS.rem pin 8 = pin mod 8.
Proof. intros Hp. unfold JS.rem. apply Z.rem_mod_nonneg; lia. Qed.

(** [((x >> n) & 1) === 1] tests bit [n] of [x]. *)
Lemma bit_test (x n : Z) :
  0 <= n < 32 -> (JS.band (JS.sar x n) 1 =? 1) = Z.testbit x n.
Proof.
  intros Hn. unfold JS.band, JS.sar.
  rewrite shift_count by lia.
  rewrite (ToInt32_small 1) by lia.
  change 1 with (Z.ones 1) at 1.
  rewrite Z.land_ones by lia.
  change (2 ^ 1) with 2.
  rewrite <- Z.bit0_eqb.
  rewrite ToInt32_testbit by lia.
  rewrite Z.shiftr_spec by lia.
  apply ToInt32_testbit. lia.
Qed.

End JSFacts.

(** ** Buffers *)

Lemma getByte_byte_of (buf : Buffer) (i : Z) :
  getByte buf i = default 0 (byte_of buf i).
Proof.
  unfold getByte, byte_of, Buffer_length.
  destruct (Z.ltb_spec i 0) as [Hneg | Hpos]; settle_comparisons.
  - reflexivity.
  - destruct (Z.ltb_spec i (Z.of_nat (length buf))) as [Hin | Hout].
    + reflexivity.
    + now rewrite lookup_ge_None_2 by lia.
Qed.

(** A buffer of one or two bytes written at its indices holds the values
    reduced to eight bits. *)
Lemma setByte_1 (v : Z) : setByte (createBuffer 1) 0 v = [v mod 256].
Proof. reflexivity. Qed.

Lemma setByte_2 (v w : Z) :
  setByte (setByte (createBuffer 2) 0 v) 1 w = [v mod 256; w mod 256].
Proof. reflexivity. Qed.

(** ** Waiting on a register *)

Section Waiting.
Context {T : Type}.
Implicit Types (r : RegisterClient T) (bus : delivery).

(** A wait with a timeout always resumes. *)
Lemma pauseUntilValues_bounded t bus r :
  exists r', pauseUntilValues (Some t) bus r = Values (values r') r'.
Proof.
  unfold pauseUntilValues.
  destruct (hasValues r); [ now eexists | ].
  destruct bus as [after payload | ]; [ | now eexists ].
  destruct (in_time (Some t) after); now eexists.
Qed.

(** A register with a value is returned at once and left alone. *)
Lemma pauseUntilValues_cached timeOut bus r :
  hasValues r = true -> pauseUntilValues timeOut bus r = Values (values r) r.
Proof. intros H. unfold pauseUntilValues. now rewrite H. Qed.


(** A wait without timeout resumes exactly when a value is or becomes
    available. *)
Lemma pauseUntilValues_unbounded bus r :
  pauseUntilValues None bus r =
  if hasValues r || match bus with Report _ _ => true | Silent => false end
  then Values (values (resumed_register bus r)) (resumed_register bus r)
  else Suspended (resumed_register bus r).
Proof.
  unfold pauseUntilValues, resumed_register.
  destruct (hasValues r); [ reflexivity | ].
  now destruct bus.
Qed.

Lemma hasValues_resumed bus r :
  hasValues (resumed_register bus r) =
  hasValues r || match bus with Report _ _ => true | Silent => false end.
Proof.
  unfold resumed_register.
  destruct (hasValues r) eqn:E; [ now rewrite E | ].
  destruct bus; [ reflexivity | exact E ].
Qed.

(** The counter moves by at most one per wait, and not at all when the
    register has a value. *)
Lemma waits_resumed bus r :
  waits (resumed_register bus r) =
  if hasValues r then waits r else S (waits r).
Proof.
  unfold resumed_register.
  destruct (hasValues r); [ reflexivity | ].
  now destruct bus.
Qed.

End Waiting.

(** ** The read path *)

(** [state()] always returns: its wait is bounded by the reading timeout.
    It switches streaming on and leaves the reading register as the wait
    left it. *)
Lemma state_returns (bus : delivery) (c : GPIOClient) :
  exists r,
    pauseUntilValues (Some (readingTimeout c)) bus (_reading c)
      = Values (values r) r /\
    state bus c
      = Returned (values r !! 0%nat) (with_reading r (with_streaming true c)).
Proof.
  destruct (pauseUntilValues_bounded (readingTimeout c) bus (_reading c))
    as [r Hr].
  exists r. split; [ exact Hr | ].
  unfold state, bind, setStreaming, this_readingTimeout,
    reading_pauseUntilValues, ret.
  cbn [readingTimeout _reading with_streaming].
  now rewrite Hr.
Qed.


(** [digitalRead] computes the specified decoding of what [state()]
    returned, in the state [state()] left. *)
Lemma digitalRead_of_state (bus : delivery) (pin : Z) (c c' : GPIOClient)
    (bitmask : option Buffer) :
  state bus c = Returned bitmask c' ->
  digitalRead bus pin c = Returned (digitalRead_spec bitmask pin) c'.
Proof.
  intros Hst. unfold digitalRead, bind. rewrite Hst.
  destruct bitmask as [buf | ]; [ | reflexivity ].
  unfold digitalRead_spec, ret, Buffer_length.
  destruct (Z.ltb_spec pin 0) as [Hneg | Hpos]; [ reflexivity | ].
  rewrite Z.geb_leb. cbn [orb].
  assert (Hbit : 0 <= JS.rem pin 8 < 32).
  { rewrite JSFacts.rem_8 by lia.
    pose proof (Z.mod_pos_bound pin 8). lia. }
  destruct (Z.leb_spec (Z.of_nat (length buf)) (JS.sar pin 3)) as [Hout | Hin].
  - (* the code's test [byteIndex >= buf.length] holds *)
    destruct (Z.ltb_spec (Z.of_nat (length buf)) (JS.sar pin 3));
      [ reflexivity | ].
    (* [pin >> 3] is the length itself: the bitmask has no such byte *)
    unfold byte_of. settle_comparisons.
    rewrite lookup_ge_None_2 by lia.
    cbn [default from_option]. now rewrite Z.testbit_0_l.
  - settle_comparisons.
    now rewrite JSFacts.bit_test, getByte_byte_of.
Qed.

(** [digitalRead] always returns, with the decoding of what [state()]
    returns and in the state [state()] leaves. *)
Lemma digitalRead_returns (bus : delivery) (pin : Z) (c : GPIOClient) :
  exists r,
    let c' := with_reading r (with_streaming true c) in
    state bus c = Returned (values r !! 0%nat) c' /\
    digitalRead bus pin c
      = Returned (digitalRead_spec (values r !! 0%nat) pin) c'.
Proof.
  destruct (state_returns bus c) as (r & _ & Hst).
  exists r. cbv zeta. split; [ exact Hst | ].
  now apply digitalRead_of_state.
Qed.

(** On 32-bit pin indices the decoding reads bit [pin mod 8] of byte
    [pin / 8], and no bit where the bitmask has no such byte. *)
Lemma digitalRead_spec_small_pin (buf : Buffer) (pin : Z) :
  0 <= pin < 2 ^ 31 ->
  digitalRead_spec (Some buf) pin =
  match buf !! Z.to_nat (pin / 8) with
  | Some byte => Z.testbit byte (pin mod 8)
  | None => false
  end.
Proof.
  intros Hpin. unfold digitalRead_spec, byte_of.
  rewrite JSFacts.sar_3, JSFacts.rem_8 by lia.
  assert (0 <= pin / 8) by (apply Z.div_pos; lia).
  settle_comparisons. cbn [orb].
  destruct (Z.ltb_spec (Z.of_nat (length buf)) (pin / 8)) as [Hout | Hin].
  - now rewrite lookup_ge_None_2 by lia.
  - destruct (buf !! Z.to_nat (pin / 8)); [ reflexivity | ].
    apply Z.testbit_0_l.
Qed.

(** A negative pin reads false. *)
Lemma digitalRead_spec_negative (bitmask : option Buffer) (pin : Z) :
  pin < 0 -> digitalRead_spec bitmask pin = false.
Proof.
  intros Hneg. destruct bitmask as [buf | ]; [ | reflexivity ].
  unfold digitalRead_spec. now settle_comparisons.
Qed.

(** From [2^31] on, [>>] reduces the pin to 32 bits: pin [2^32] reads bit 0
    of byte 0. *)
Remark digitalRead_spec_wraps : digitalRead_spec (Some [1]) (2 ^ 32) = true.
Proof. reflexivity. Qed.

(** C1. For every call [digitalRead(pin)]: the call returns (it neither
    fails nor blocks), and with [bitmask] what [state()] returned, the
    result is false if the bitmask is absent, [pin < 0] or [pin >> 3]
    exceeds the bitmask length, and otherwise bit [pin % 8] of byte
    [pin >> 3] of the bitmask. *)
Theorem digitalRead_decodes (bus : delivery) (pin : Z) (c : GPIOClient) :
  exists bitmask c',
    state bus c = Returned bitmask c' /\
    digitalRead bus pin c = Returned (digitalRead_spec bitmask pin) c'.
Proof.
  destruct (digitalRead_returns bus pin c) as (r & Hst & Hrd).
  eexists _, _. split; [ exact Hst | exact Hrd ].
Qed.

(** C2. Bitmask decoding, least significant bit first: when [state()]
    returns [buf], [byte] is byte [k] of [buf] and [b] is a bit position in
    [0, 8), [digitalRead(8*k + b)] is bit [b] of [byte]: true if the bit is
    set, false if it is clear.  (The pin is a 32-bit index, which every
    buffer below 256 MiB guarantees.) *)
Theorem digitalRead_bit_roundtrip (bus : delivery) (c c' : GPIOClient)
    (buf : Buffer) (k : nat) (byte b : Z) :
  state bus c = Returned (Some buf) c' ->
  buf !! k = Some byte ->
  0 <= b < 8 ->
  8 * Z.of_nat k + b < 2 ^ 31 ->
  digitalRead bus (8 * Z.of_nat k + b) c = Returned (Z.testbit byte b) c'.
Proof.
  intros Hst Hk Hb Hpin.
  rewrite (digitalRead_of_state _ _ _ _ _ Hst). f_equal.
  rewrite digitalRead_spec_small_pin by lia.
  replace ((8 * Z.of_nat k + b) / 8) with (Z.of_nat k).
  - rewrite Nat2Z.id, Hk. f_equal.
    rewrite (Z.mul_comm 8), Z.add_comm, Z.mod_add by lia.
    apply Z.mod_small; lia.
  - rewrite (Z.mul_comm 8), Z.div_add_l by lia.
    rewrite (Z.div_small b 8) by lia. lia.
Qed.

(** The scenario of the specification: buffer [[0b00000101]]. *)
Lemma digitalRead_bit_roundtrip_witness :
  let bus := Report 10 [5] in
  let c' := final (state bus Sample.gpio1) in
  digitalRead bus 0 Sample.gpio1 = Returned true c' /\
  digitalRead bus 1 Sample.gpio1 = Returned false c' /\
  digitalRead bus 2 Sample.gpio1 = Returned true c' /\
  digitalRead bus 3 Sample.gpio1 = Returned false c'.
Proof.
  intros bus c'.
  split; [ | split; [ | split ] ].
  - apply (digitalRead_bit_roundtrip bus Sample.gpio1 c' [5] 0 5 0);
      [ reflexivity | reflexivity | lia | reflexivity ].
  - apply (digitalRead_bit_roundtrip bus Sample.gpio1 c' [5] 0 5 1);
      [ reflexivity | reflexivity | lia | reflexivity ].
  - apply (digitalRead_bit_roundtrip bus Sample.gpio1 c' [5] 0 5 2);
      [ reflexivity | reflexivity | lia | reflexivity ].
  - apply (digitalRead_bit_roundtrip bus Sample.gpio1 c' [5] 0 5 3);
      [ reflexivity | reflexivity | lia | reflexivity ].
Defined.


(** C10. The read path sends no command: after [state()] and after
    [digitalRead(pin)] the commands sent are those sent before.  Both leave
    the client as it was except that streaming is on and the reading
    register is as the register store's wait left it; in particular the
    [_numPins] register and the started flag are unchanged. *)
Theorem read_path_sends_no_command (bus : delivery) (pin : Z)
    (c : GPIOClient) :
  let c1 := final (state bus c) in
  let c2 := final (digitalRead bus pin c) in
  sent c1 = sent c /\ sent c2 = sent c /\
  c1 = with_reading (_reading c1) (with_streaming true c) /\
  c2 = with_reading (_reading c2) (with_streaming true c) /\
  _numPins c2 = _numPins c /\ started c2 = started c /\
  streaming c2 = true.
Proof.
  destruct (digitalRead_returns bus pin c) as (r & Hst & Hrd).
  cbv zeta. rewrite Hst, Hrd. cbn [final].
  repeat split.
Qed.

(** ** The write path *)

(** What every command method does first: start, then wait on [_numPins]
    without timeout.  The call goes on exactly when the register has or
    receives a value. *)
Lemma gate_outcome {A} (bus : delivery) (k : list Z -> M A) (c : GPIOClient) :
  (start ;; vs <- numPins_pauseUntilValues None bus ;; k vs) c =
  if numPins_known bus c
  then k (values (_numPins (gated bus c))) (gated bus c)
  else Blocked (gated bus c).
Proof.
  unfold bind, start, numPins_pauseUntilValues, numPins_known, gated.
  cbn [_numPins with_started].
  rewrite pauseUntilValues_unbounded.
  now destruct (hasValues (_numPins c) || _).
Qed.

Lemma gated_started (bus : delivery) (c : GPIOClient) :
  started (gated bus c) = true.
Proof. reflexivity. Qed.

Lemma gated_hasValues (bus : delivery) (c : GPIOClient) :
  hasValues (_numPins (gated bus c)) = numPins_known bus c.
Proof. apply hasValues_resumed. Qed.

Lemma gated_waits (bus : delivery) (c : GPIOClient) :
  waits (_numPins (gated bus c)) =
  if hasValues (_numPins c)
  then waits (_numPins c)
  else S (waits (_numPins c)).
Proof. apply waits_resumed. Qed.

(** Once started and with a value in [_numPins], the gate changes
    nothing. *)
Lemma gated_settled (bus : delivery) (c : GPIOClient) :
  started c = true -> hasValues (_numPins c) = true -> gated bus c = c.
Proof.
  intros Hs Hv. unfold gated, resumed_register. rewrite Hv.
  destruct c; cbn in *. now subst.
Qed.

Lemma numPins_outcome (bus : delivery) (c : GPIOClient) :
  numPins bus c =
  if numPins_known bus c
  then Returned (values (_numPins (gated bus c)) !! 0%nat) (gated bus c)
  else Blocked (gated bus c).
Proof. unfold numPins. now rewrite gate_outcome. Qed.

Lemma configure_outcome (bus : delivery) (pin mode : Z) (c : GPIOClient) :
  configure bus pin mode c =
  if numPins_known bus c
  then Returned tt
         (with_sent
            (sent c ++ [JDPacket_from Configure [pin mod 256; mode mod 256]])
            (gated bus c))
  else Blocked (gated bus c).
Proof. unfold configure. now rewrite gate_outcome, setByte_2. Qed.

Lemma requestPinInfo_outcome (bus : delivery) (pin : Z) (c : GPIOClient) :
  requestPinInfo bus pin c =
  if numPins_known bus c
  then Returned tt
         (with_sent (sent c ++ [JDPacket_from PinInfo [pin mod 256]])
            (gated bus c))
  else Blocked (gated bus c).
Proof. unfold requestPinInfo. now rewrite gate_outcome, setByte_1. Qed.

Lemma requestPinByHwPin_outcome (bus : delivery) (hwPin : Z)
    (c : GPIOClient) :
  requestPinByHwPin bus hwPin c =
  if numPins_known bus c
  then Returned tt
         (with_sent (sent c ++ [JDPacket_from PinByHwPin [hwPin mod 256]])
            (gated bus c))
  else Blocked (gated bus c).
Proof. unfold requestPinByHwPin. now rewrite gate_outcome, setByte_1. Qed.

Lemma requestPinByLabel_outcome (packable : string -> bool)
    (bus : delivery) (label : string) (c : GPIOClient) :
  requestPinByLabel packable bus label c =
  if numPins_known bus c
  then if packable label
       then Returned tt
              (with_sent
                 (sent c ++ [JDPacket_from PinByLabel (jdpack_string label)])
                 (gated bus c))
       else Rejected (gated bus c)
  else Blocked (gated bus c).
Proof.
  unfold requestPinByLabel, jdpacked. rewrite gate_outcome.
  destruct (numPins_known bus c); [ | reflexivity ].
  now destruct (packable label).
Qed.

Create Rewrite HintDb gpio_outcome.

#[local] Hint Rewrite
  numPins_outcome configure_outcome requestPinInfo_outcome
  requestPinByHwPin_outcome requestPinByLabel_outcome : gpio_outcome.

(** Run the methods of the goal through the gate. *)
Ltac through_gate := autorewrite with gpio_outcome.

(** A command method that does not return has sent nothing. *)
Lemma write_path_failure_sends_nothing (packable : string -> bool)
    (bus : delivery) (pin mode hwPin : Z) (label : string) (c : GPIOClient) :
  let unchanged (o : outcome unit) : Prop :=
    returned o = false -> sent (final o) = sent c in
  unchanged (configure bus pin mode c) /\
  unchanged (requestPinInfo bus pin c) /\
  unchanged (requestPinByHwPin bus hwPin c) /\
  unchanged (requestPinByLabel packable bus label c).
Proof.
  cbv zeta. through_gate.
  destruct (numPins_known bus c), (packable label); cbn;
    repeat split; intros; (discriminate || reflexivity).
Qed.

(** C4. For every pin and mode, [configure(pin, mode)] is the gate of
    [numPins()] with the value it returns thrown away, followed by sending
    a frame that does not depend on that value: [pin] is never compared
    with the number of pins.  When the gate resolves the call returns and
    the frame, of two bytes [pin, mode] on the [Configure] opcode, is the
    last command sent. *)
Theorem configure_sends_frame (bus : delivery) (pin mode : Z)
    (c : GPIOClient) :
  let frame := JDPacket_from Configure [pin mod 256; mode mod 256] in
  configure bus pin mode c = (numPins bus ;; sendCommand frame) c /\
  (numPins_known bus c = true ->
   exists c',
     configure bus pin mode c = Returned tt c' /\
     sent c' = sent c ++ [frame] /\
     length (pkt_data frame) = 2%nat /\
     (0 <= pin < 256 -> 0 <= mode < 256 ->
      sent c' = sent c ++ [JDPacket_from Configure [pin; mode]])).
Proof.
  cbv zeta. split.
  - unfold bind. through_gate.
    now destruct (numPins_known bus c).
  - intros Hk. through_gate. rewrite Hk.
    eexists. do 3 (split; [ reflexivity | ]).
    intros Hpin Hmode. cbn [sent with_sent].
    now rewrite !Z.mod_small by lia.
Qed.

(** The device reports four pins and pin 9 is configured all the same. *)
Lemma configure_sends_frame_witness :
  let bus := Report 1 [4] in
  numPins bus Sample.gpio1 = Returned (Some 4) (gated bus Sample.gpio1) /\
  exists c',
    configure bus 9 Sample.OutputHigh Sample.gpio1 = Returned tt c' /\
    sent c' = [JDPacket_from Configure [9; Sample.OutputHigh]].
Proof.
  intros bus. split; [ reflexivity | ].
  destruct (configure_sends_frame bus 9 Sample.OutputHigh Sample.gpio1)
    as [_ Hsend].
  destruct (Hsend eq_refl) as (c' & Hret & _ & _ & Hframe).
  exists c'. split; [ exact Hret | ].
  apply Hframe; unfold Sample.OutputHigh; lia.
Defined.

(** C3. For every pin, [digitalWrite(pin, true)] is
    [configure(pin, OutputHigh)] and [digitalWrite(pin, false)] is
    [configure(pin, OutputLow)]; when the call returns, the last command
    sent is the frame [pin, OutputHigh], respectively [pin, OutputLow], on
    the [Configure] opcode. *)
Theorem digitalWrite_is_configure (OutputHigh OutputLow : Z)
    (bus : delivery) (pin : Z) (c : GPIOClient) :
  let write := digitalWrite OutputHigh OutputLow bus pin in
  let mode (high : bool) := if high then OutputHigh else OutputLow in
  write true c = configure bus pin OutputHigh c /\
  write false c = configure bus pin OutputLow c /\
  (numPins_known bus c = true ->
   forall high,
     exists c',
       write high c = Returned tt c' /\
       last (sent c')
         = Some (JDPacket_from Configure [pin mod 256; mode high mod 256]) /\
       (0 <= pin < 256 -> 0 <= mode high < 256 ->
        last (sent c') = Some (JDPacket_from Configure [pin; mode high]))).
Proof.
  cbv zeta. do 2 (split; [ reflexivity | ]).
  intros Hk high. unfold digitalWrite. through_gate. rewrite Hk.
  eexists. split; [ reflexivity | ].
  cbn [sent with_sent]. rewrite last_snoc.
  split; [ reflexivity | ].
  intros Hpin Hmode. now rewrite !Z.mod_small by lia.
Qed.

(** The scenario of the specification, on a client whose gate resolves. *)
Lemma digitalWrite_is_configure_witness :
  let bus := Report 1 [4] in
  let write := digitalWrite Sample.OutputHigh Sample.OutputLow bus 7 in
  (exists c', write true Sample.gpio1 = Returned tt c' /\
     last (sent c') = Some (JDPacket_from Configure [7; Sample.OutputHigh])) /\
  (exists c', write false Sample.gpio1 = Returned tt c' /\
     last (sent c') = Some (JDPacket_from Configure [7; Sample.OutputLow])).
Proof.
  intros bus write.
  destruct (digitalWrite_is_configure Sample.OutputHigh Sample.OutputLow
              bus 7 Sample.gpio1) as (_ & _ & Hlast).
  specialize (Hlast eq_refl).
  split.
  - destruct (Hlast true) as (c' & Hret & _ & Hframe).
    exists c'. split; [ exact Hret | ].
    apply Hframe; unfold Sample.OutputHigh; lia.
  - destruct (Hlast false) as (c' & Hret & _ & Hframe).
    exists c'. split; [ exact Hret | ].
    apply Hframe; unfold Sample.OutputLow; lia.
Defined.

(** C7. [requestPinInfo(pin)] sends the one-byte frame [pin] on the
    [PinInfo] opcode and [requestPinByHwPin(hwPin)] the one-byte frame
    [hwPin] on the [PinByHwPin] opcode.  Either call is the gate of
    [numPins()] (start the connection, then wait for [_numPins]) followed
    by the send, in this order: when the gate resolves the call returns
    started, with a value in [_numPins] and the frame added; when it does
    not, the call blocks on a started connection, [_numPins] has no value
    and nothing is sent. *)
Theorem requestPin_frames_after_gate (bus : delivery) (pin hwPin : Z)
    (c : GPIOClient) :
  let info := JDPacket_from PinInfo [pin mod 256] in
  let byHwPin := JDPacket_from PinByHwPin [hwPin mod 256] in
  requestPinInfo bus pin c = (numPins bus ;; sendCommand info) c /\
  requestPinByHwPin bus hwPin c = (numPins bus ;; sendCommand byHwPin) c /\
  (numPins_known bus c = true ->
   exists c1 c2,
     requestPinInfo bus pin c = Returned tt c1 /\
     requestPinByHwPin bus hwPin c = Returned tt c2 /\
     sent c1 = sent c ++ [info] /\ sent c2 = sent c ++ [byHwPin] /\
     started c1 = true /\ started c2 = true /\
     hasValues (_numPins c1) = true /\ hasValues (_numPins c2) = true /\
     (0 <= pin < 256 -> pkt_data info = [pin]) /\
     (0 <= hwPin < 256 -> pkt_data byHwPin = [hwPin])) /\
  (numPins_known bus c = false ->
   exists c1 c2,
     requestPinInfo bus pin c = Blocked c1 /\
     requestPinByHwPin bus hwPin c = Blocked c2 /\
     sent c1 = sent c /\ sent c2 = sent c /\
     started c1 = true /\ started c2 = true /\
     hasValues (_numPins c1) = false /\ hasValues (_numPins c2) = false).
Proof.
  cbv zeta. unfold bind. through_gate.
  split; [ now destruct (numPins_known bus c) | ].
  split; [ now destruct (numPins_known bus c) | ].
  split; intros Hk; rewrite Hk.
  - eexists _, _. do 6 (split; [ reflexivity | ]).
    cbn [_numPins with_sent]. rewrite gated_hasValues, Hk.
    do 2 (split; [ reflexivity | ]).
    split; intros Hb; cbn [pkt_data JDPacket_from];
      now rewrite Z.mod_small by lia.
  - eexists _, _. do 6 (split; [ reflexivity | ]).
    rewrite gated_hasValues, Hk. split; reflexivity.
Qed.

(** A client whose gate resolves, and one, not started yet, facing a
    silent device: it blocks started and with nothing sent. *)
Lemma requestPin_frames_after_gate_witness :
  (exists c1 c2,
     requestPinInfo (Report 1 [4]) 3 Sample.gpio1 = Returned tt c1 /\
     requestPinByHwPin (Report 1 [4]) 26 Sample.gpio1 = Returned tt c2 /\
     sent c1 = [JDPacket_from PinInfo [3]] /\
     sent c2 = [JDPacket_from PinByHwPin [26]]) /\
  started Sample.gpio1 = false /\
  (exists c1 c2,
     requestPinInfo Silent 3 Sample.gpio1 = Blocked c1 /\
     requestPinByHwPin Silent 26 Sample.gpio1 = Blocked c2 /\
     sent c1 = [] /\ sent c2 = [] /\
     started c1 = true /\ started c2 = true).
Proof.
  split; [ | split; [ reflexivity | ] ].
  - destruct (requestPin_frames_after_gate (Report 1 [4]) 3 26 Sample.gpio1)
      as (_ & _ & Hsend & _).
    destruct (Hsend eq_refl)
      as (c1 & c2 & H1 & H2 & Hs1 & Hs2 & _).
    now exists c1, c2.
  - destruct (requestPin_frames_after_gate Silent 3 26 Sample.gpio1)
      as (_ & _ & _ & Hblock).
    destruct (Hblock eq_refl)
      as (c1 & c2 & H1 & H2 & Hs1 & Hs2 & Hst1 & Hst2 & _).
    now exists c1, c2.
Defined.

(** C9. The bytes of a command frame are the arguments reduced to eight
    bits: for all integers [pin], [mode] and [hwPin], when the gate
    resolves, [configure] sends [pin mod 256, mode mod 256],
    [requestPinInfo] sends [pin mod 256] and [requestPinByHwPin] sends
    [hwPin mod 256].  The calls return whatever the arguments: values
    outside [0, 255] are wrapped, not rejected. *)
Theorem frames_wrap_to_bytes (bus : delivery) (pin mode hwPin : Z)
    (c : GPIOClient) :
  numPins_known bus c = true ->
  exists c1 c2 c3,
    configure bus pin mode c = Returned tt c1 /\
    requestPinInfo bus pin c = Returned tt c2 /\
    requestPinByHwPin bus hwPin c = Returned tt c3 /\
    last (sent c1)
      = Some (JDPacket_from Configure [pin mod 256; mode mod 256]) /\
    last (sent c2) = Some (JDPacket_from PinInfo [pin mod 256]) /\
    last (sent c3) = Some (JDPacket_from PinByHwPin [hwPin mod 256]).
Proof.
  intros Hk. through_gate. rewrite Hk.
  eexists _, _, _. do 3 (split; [ reflexivity | ]).
  cbn [sent with_sent]. now rewrite !last_snoc.
Qed.

(** Pin 300 wraps to 44, mode -1 to 255, hardware pin 256 to 0. *)
Lemma frames_wrap_to_bytes_witness :
  exists c1 c2 c3,
    configure (Report 1 [4]) 300 (-1) Sample.gpio1 = Returned tt c1 /\
    requestPinInfo (Report 1 [4]) 300 Sample.gpio1 = Returned tt c2 /\
    requestPinByHwPin (Report 1 [4]) 256 Sample.gpio1 = Returned tt c3 /\
    last (sent c1) = Some (JDPacket_from Configure [44; 255]) /\
    last (sent c2) = Some (JDPacket_from PinInfo [44]) /\
    last (sent c3) = Some (JDPacket_from PinByHwPin [0]).
Proof.
  apply (frames_wrap_to_bytes (Report 1 [4]) 300 (-1) 256 Sample.gpio1).
  reflexivity.
Defined.

(** ** Caching of the pin count *)

(** Once [numPins()] has returned, further calls return the same value and
    leave the client exactly as it is. *)
Lemma numPins_repeat_settled (buses : list delivery) (c : GPIOClient) :
  started c = true -> hasValues (_numPins c) = true ->
  numPins_repeat buses c
  = Returned (replicate (length buses) (values (_numPins c) !! 0%nat)) c.
Proof.
  intros Hs Hv. induction buses as [ | bus buses IH ]; [ reflexivity | ].
  cbn [numPins_repeat length replicate]. unfold bind at 1.
  through_gate.
  unfold numPins_known. rewrite Hv. cbn [orb].
  rewrite gated_settled by assumption.
  unfold bind. now rewrite IH.
Qed.

(** Any run of calls suspends on the register at most once. *)
Lemma numPins_repeat_waits (buses : list delivery) (c : GPIOClient) :
  (waits (_numPins (final (numPins_repeat buses c)))
   <= S (waits (_numPins c)))%nat.
Proof.
  destruct buses as [ | bus buses ]; [ cbn; lia | ].
  cbn [numPins_repeat]. unfold bind at 1. through_gate.
  assert (Hw : (waits (_numPins (gated bus c)) <= S (waits (_numPins c)))%nat).
  { rewrite gated_waits. destruct (hasValues (_numPins c)); lia. }
  destruct (numPins_known bus c) eqn:Hk; [ | exact Hw ].
  unfold bind.
  rewrite numPins_repeat_settled;
    [ exact Hw | apply gated_started | now rewrite gated_hasValues ].
Qed.

(** C6. Across every sequence of [numPins()] calls on one client, at most
    one blocking read of the register is entered: whatever the client, the
    counter of waits grows by at most one; on a new client it ends at most
    at one; and once a call has returned, every later call returns the same
    value without waiting and without changing the client. *)
Theorem numPins_reads_at_most_once
    (GPIORegPack_State : Buffer -> list Buffer)
    (GPIORegPack_NumPins : Buffer -> list Z)
    (timeOut : Z) (role : string) (buses : list delivery) :
  let gpio := constructor GPIORegPack_State GPIORegPack_NumPins timeOut role in
  (forall c,
     (waits (_numPins (final (numPins_repeat buses c)))
      <= S (waits (_numPins c)))%nat) /\
  (waits (_numPins (final (numPins_repeat buses gpio))) <= 1)%nat /\
  (forall bus c n c1,
     numPins bus c = Returned n c1 ->
     forall more,
       numPins_repeat more c1 = Returned (replicate (length more) n) c1 /\
       waits (_numPins c1) <= S (waits (_numPins c)))%nat.
Proof.
  cbv zeta. split; [ | split ].
  - intros c. apply numPins_repeat_waits.
  - apply (numPins_repeat_waits buses
             (constructor GPIORegPack_State GPIORegPack_NumPins timeOut role)).
  - intros bus c n c1 Hret more.
    rewrite numPins_outcome in Hret.
    destruct (numPins_known bus c) eqn:Hk; [ | discriminate ].
    injection Hret as <- <-.
    split.
    + apply numPins_repeat_settled;
        [ apply gated_started | now rewrite gated_hasValues ].
    + rewrite gated_waits. destruct (hasValues (_numPins c)); lia.
Qed.

(** The first call waits for the device's report of four pins; the two
    calls after it find the value cached. *)
Lemma numPins_reads_at_most_once_witness :
  let c1 := gated (Report 1 [4]) Sample.gpio1 in
  numPins (Report 1 [4]) Sample.gpio1 = Returned (Some 4) c1 /\
  numPins_repeat [Silent; Silent] c1 = Returned [Some 4; Some 4] c1 /\
  waits (_numPins c1) = 1%nat.
Proof.
  intros c1. split; [ reflexivity | ]. split; [ | reflexivity ].
  destruct (numPins_reads_at_most_once
              Sample.unpack_bytes Sample.unpack_u8 500 "gpio1" [])
    as (_ & _ & Hlater).
  apply (Hlater (Report 1 [4]) Sample.gpio1 (Some 4) c1 eq_refl
           [Silent; Silent]).
Defined.

(** ** Packed labels *)


Lemma utf8_bytes_are_bytes (a : ascii) : Forall is_byte (utf8_bytes a).
Proof.
  unfold utf8_bytes, is_byte.
  pose proof (N_ascii_bounded a) as Hb.
  set (code := Z.of_N (N_of_ascii a)).
  assert (Hcode : 0 <= code < 256) by (subst code; lia).
  pose proof (Z.mod_pos_bound code 64 ltac:(lia)).
  assert (0 <= code / 64 < 4)
    by (split; [ apply Z.div_pos | apply Z.div_lt_upper_bound ]; lia).
  destruct (code <? 128); repeat (constructor; [ lia | ]); constructor.
Qed.

(** A character takes one or two bytes. *)
Lemma utf8_bytes_length (a : ascii) :
  (1 <= length (utf8_bytes a) <= 2)%nat.
Proof. unfold utf8_bytes. destruct (_ <? 128); cbn; lia. Qed.


(** A label the packing collaborator rejects sends nothing. *)
Lemma requestPinByLabel_rejected (packable : string -> bool)
    (bus : delivery) (label : string) (c : GPIOClient) :
  packable label = false ->
  sent (final (requestPinByLabel packable bus label c)) = sent c.
Proof.
  intros Hp. through_gate. rewrite Hp.
  now destruct (numPins_known bus c).
Qed.




(** * Further properties of the read path *)

Lemma ToInt32_periodic (x k : Z) :
  JS.ToInt32 (x + k * 2 ^ 32) = JS.ToInt32 x.
Proof.
  unfold JS.ToInt32.
  replace (x + k * 2 ^ 32 + 2 ^ 31) with (x + 2 ^ 31 + k * 2 ^ 32) by lia.
  now rewrite Z_mod_plus_full.
Qed.

(** From [2^31] up to [2^32] the byte index [pin >> 3] is negative. *)
Lemma sar_3_negative (pin : Z) :
  2 ^ 31 <= pin < 2 ^ 32 -> JS.sar pin 3 < 0.
Proof.
  intros Hp. unfold JS.sar.
  apply Z.shiftr_neg.
  replace pin with (pin - 2 ^ 32 + 1 * 2 ^ 32) by lia.
  rewrite ToInt32_periodic, JSFacts.ToInt32_small; lia.
Qed.

Lemma digitalRead_spec_periodic (bitmask : option Buffer) (pin k : Z) :
  0 <= pin -> 0 <= k ->
  digitalRead_spec bitmask (pin + k * 2 ^ 32) = digitalRead_spec bitmask pin.
Proof.
  intros Hp Hk. destruct bitmask as [buf | ]; [ | reflexivity ].
  unfold digitalRead_spec.
  assert (Hsar : JS.sar (pin + k * 2 ^ 32) 3 = JS.sar pin 3)
    by (unfold JS.sar; now rewrite ToInt32_periodic).
  assert (Hrem : JS.rem (pin + k * 2 ^ 32) 8 = JS.rem pin 8).
  { rewrite !JSFacts.rem_8 by nia.
    replace (k * 2 ^ 32) with (k * 2 ^ 29 * 8) by lia.
    apply Z_mod_plus_full. }
  rewrite Hsar, Hrem.
  replace (pin + k * 2 ^ 32 <? 0) with false by (symmetry; apply Z.ltb_ge; nia).
  now replace (pin <? 0) with false by (symmetry; apply Z.ltb_ge; lia).
Qed.

(** X1. A pin at or past eight times the length of the bitmask reads
    false, as long as it is below [2^32]. *)
Theorem digitalRead_beyond_bitmask (bus : delivery) (c c' : GPIOClient)
    (buf : Buffer) (pin : Z) :
  state bus c = Returned (Some buf) c' ->
  8 * Z.of_nat (length buf) <= pin < 2 ^ 32 ->
  digitalRead bus pin c = Returned false c'.
Proof.
  intros Hst Hpin.
  rewrite (digitalRead_of_state _ _ _ _ _ Hst). f_equal.
  destruct (Z.lt_ge_cases pin (2 ^ 31)) as [Hsmall | Hbig].
  - rewrite digitalRead_spec_small_pin by lia.
    rewrite lookup_ge_None_2; [ reflexivity | ].
    assert (Z.of_nat (length buf) <= pin / 8)
      by (apply Z.div_le_lower_bound; lia).
    lia.
  - pose proof (sar_3_negative pin ltac:(lia)) as Hneg.
    unfold digitalRead_spec, byte_of.
    settle_comparisons. cbn [orb default from_option id].
    apply Z.testbit_0_l.
Qed.

(** An empty bitmask, a one-byte bitmask read at pin 8, and a pin in the
    upper half of the 32-bit range. *)
Lemma digitalRead_beyond_bitmask_witness :
  (let bus := Report 10 [] in
   digitalRead bus 0 Sample.gpio1
   = Returned false (final (state bus Sample.gpio1))) /\
  (let bus := Report 10 [255] in
   digitalRead bus 8 Sample.gpio1
   = Returned false (final (state bus Sample.gpio1)) /\
   digitalRead bus (2 ^ 31) Sample.gpio1
   = Returned false (final (state bus Sample.gpio1))).
Proof.
  split; [ | split ].
  - apply (digitalRead_beyond_bitmask (Report 10 []) Sample.gpio1 _ [] 0);
      [ reflexivity | cbn; lia ].
  - apply (digitalRead_beyond_bitmask (Report 10 [255]) Sample.gpio1 _
             [255] 8); [ reflexivity | cbn; lia ].
  - apply (digitalRead_beyond_bitmask (Report 10 [255]) Sample.gpio1 _
             [255] (2 ^ 31)); [ reflexivity | cbn; lia ].
Defined.

(** X2. Pin indices are read modulo [2^32]: for a pin that is not
    negative, adding a multiple of [2^32] changes neither the result of
    [digitalRead] nor the state it leaves. *)
Theorem digitalRead_pin_modulo (bus : delivery) (pin k : Z)
    (c : GPIOClient) :
  0 <= pin -> 0 <= k ->
  digitalRead bus (pin + k * 2 ^ 32) c = digitalRead bus pin c.
Proof.
  intros Hp Hk.
  destruct (state_returns bus c) as (r & _ & Hst).
  rewrite !(digitalRead_of_state _ _ _ _ _ Hst).
  now rewrite digitalRead_spec_periodic.
Qed.

(** Pin [2^32 + 2] reads what pin 2 reads: true on the bitmask
    [[0b00000101]]. *)
Lemma digitalRead_pin_modulo_witness :
  let bus := Report 10 [5] in
  digitalRead bus (2 ^ 32 + 2) Sample.gpio1
  = Returned true (final (state bus Sample.gpio1)).
Proof.
  intros bus.
  transitivity (digitalRead bus 2 Sample.gpio1); [ | reflexivity ].
  apply (digitalRead_pin_modulo bus 2 1 Sample.gpio1); lia.
Defined.

(** Bits of the integer a bitmask of bytes spells. *)
Lemma le_value_testbit (buf : Buffer) :
  Forall is_byte buf ->
  forall p, 0 <= p ->
    Z.testbit (le_value buf) p =
    match buf !! Z.to_nat (p / 8) with
    | Some byte => Z.testbit byte (p mod 8)
    | None => false
    end.
Proof.
  induction 1 as [ | b rest Hb Hrest IH ]; intros p Hp.
  - cbn. apply Z.testbit_0_l.
  - cbn [le_value]. unfold is_byte in Hb.
    destruct (Z.lt_ge_cases p 8) as [Hlow | Hhigh].
    + rewrite (Z.div_small p 8), (Z.mod_small p 8) by lia. cbn.
      rewrite <- (Z.mod_pow2_bits_low (b + 256 * le_value rest) 8 p) by lia.
      change (2 ^ 8) with 256.
      rewrite (Z.mul_comm 256), Z_mod_plus_full, Z.mod_small by lia.
      reflexivity.
    + replace p with (p - 8 + 8) at 1 by lia.
      rewrite <- Z.div_pow2_bits by lia.
      change (2 ^ 8) with 256.
      rewrite (Z.mul_comm 256), Z.div_add, (Z.div_small b 256) by lia.
      rewrite Z.add_0_l, IH by lia.
      replace (p / 8) with ((p - 8) / 8 + 1)
        by (replace p with (p - 8 + 1 * 8) at 2 by lia;
            now rewrite Z.div_add by lia).
      replace (p mod 8) with ((p - 8) mod 8)
        by (replace p with (p - 8 + 1 * 8) at 2 by lia;
            now rewrite Z.mod_add by lia).
      assert (0 <= (p - 8) / 8) by (apply Z.div_pos; lia).
      rewrite Z2Nat.inj_add by lia.
      now rewrite Nat.add_1_r.
Qed.

(** X3. The bitmask is one integer written least significant byte first:
    on a bitmask of bytes, [digitalRead(pin)] is bit [pin] of that integer,
    for every pin from 0 below [2^31]. *)
Theorem digitalRead_is_bit_of_integer (bus : delivery) (c c' : GPIOClient)
    (buf : Buffer) (pin : Z) :
  state bus c = Returned (Some buf) c' ->
  Forall is_byte buf ->
  0 <= pin < 2 ^ 31 ->
  digitalRead bus pin c = Returned (Z.testbit (le_value buf) pin) c'.
Proof.
  intros Hst Hbytes Hpin.
  rewrite (digitalRead_of_state _ _ _ _ _ Hst). f_equal.
  rewrite digitalRead_spec_small_pin by lia.
  symmetry. apply le_value_testbit; [ assumption | lia ].
Qed.

(** The bitmask [[0x01; 0x80]] spells 32769: pins 0 and 15 are high. *)
Lemma digitalRead_is_bit_of_integer_witness :
  let bus := Report 10 [1; 128] in
  let c' := final (state bus Sample.gpio1) in
  le_value [1; 128] = 32769 /\
  digitalRead bus 0 Sample.gpio1 = Returned true c' /\
  digitalRead bus 15 Sample.gpio1 = Returned true c' /\
  digitalRead bus 14 Sample.gpio1 = Returned false c'.
Proof.
  intros bus c'.
  assert (Hbytes : Forall is_byte [1; 128])
    by (repeat constructor; unfold is_byte; lia).
  split; [ reflexivity | split; [ | split ] ].
  - apply (digitalRead_is_bit_of_integer bus Sample.gpio1 c' [1; 128] 0);
      [ reflexivity | exact Hbytes | lia ].
  - apply (digitalRead_is_bit_of_integer bus Sample.gpio1 c' [1; 128] 15);
      [ reflexivity | exact Hbytes | lia ].
  - apply (digitalRead_is_bit_of_integer bus Sample.gpio1 c' [1; 128] 14);
      [ reflexivity | exact Hbytes | lia ].
Defined.

(** X4. When no bit of the bitmask is set (the empty bitmask included),
    every pin reads false: negative pins, pins past the bitmask and pins
    past [2^32] alike. *)
Theorem digitalRead_all_low (bus : delivery) (c c' : GPIOClient)
    (buf : Buffer) (pin : Z) :
  state bus c = Returned (Some buf) c' ->
  Forall (fun b => b = 0) buf ->
  digitalRead bus pin c = Returned false c'.
Proof.
  intros Hst Hzero.
  rewrite (digitalRead_of_state _ _ _ _ _ Hst). f_equal.
  unfold digitalRead_spec.
  destruct (_ || _); [ reflexivity | ].
  assert (Hbyte : default 0 (byte_of buf (JS.sar pin 3)) = 0).
  { unfold byte_of. destruct (_ <? 0); [ reflexivity | ].
    destruct (buf !! _) as [b | ] eqn:Hb; [ | reflexivity ].
    rewrite Forall_forall in Hzero.
    apply (Hzero b). eapply list_elem_of_lookup_2. exact Hb. }
  rewrite Hbyte. apply Z.testbit_0_l.
Qed.

(** Two bytes with no pin high, read at pin [2^32 + 9]. *)
Lemma digitalRead_all_low_witness :
  let bus := Report 10 [0; 0] in
  digitalRead bus (2 ^ 32 + 9) Sample.gpio1
  = Returned false (final (state bus Sample.gpio1)).
Proof.
  intros bus.
  apply (digitalRead_all_low bus Sample.gpio1 _ [0; 0] (2 ^ 32 + 9));
    [ reflexivity | repeat constructor ].
Defined.

(** * Further properties of sessions *)

Lemma gated_numPins_settled (bus : delivery) (c : GPIOClient) :
  hasValues (_numPins c) = true -> _numPins (gated bus c) = _numPins c.
Proof.
  intros Hv. unfold gated, resumed_register.
  cbn [_numPins with_numPins with_started]. now rewrite Hv.
Qed.

Lemma jdpack_string_bytes (s : string) : Forall is_byte (jdpack_string s).
Proof.
  unfold jdpack_string.
  induction (list_ascii_of_string s) as [ | a l IH ]; [ constructor | ].
  cbn [flat_map]. apply Forall_app.
  split; [ apply utf8_bytes_are_bytes | exact IH ].
Qed.

Lemma mod_256_is_byte (v : Z) : is_byte (v mod 256).
Proof. unfold is_byte. pose proof (Z.mod_pos_bound v 256). lia. Qed.

Section SessionFacts.

Variables OutputHigh OutputLow : Z.
Variable packable : string -> bool.

Let call := call_method OutputHigh OutputLow packable.
Let run := run_session OutputHigh OutputLow packable.
Let frame := frame_of OutputHigh OutputLow.

(** Take the goal through the eight methods: the two readers return, the
    others pass the gate first. *)
Ltac each_method bus m c :=
  subst call frame;
  destruct m as [ | pin | | pin mode | pin high | pin | label | hwPin ];
  cbn [call_method frame_of reads_state]; unfold digitalWrite, bind;
  [ destruct (state_returns bus c) as (?r & _ & ->)
  | destruct (digitalRead_returns bus pin c) as (?r & _ & ->)
  | rewrite numPins_outcome; destruct (numPins_known bus c) eqn:?
  | through_gate; destruct (numPins_known bus c) eqn:?
  | through_gate; destruct (numPins_known bus c) eqn:?
  | through_gate; destruct (numPins_known bus c) eqn:?
  | through_gate; destruct (numPins_known bus c) eqn:?;
    [ destruct (packable label) eqn:? | ]
  | through_gate; destruct (numPins_known bus c) eqn:? ];
  cbn [final ret value_of returned].

(** What one call may change of the flags and constants of the client. *)
Lemma call_method_flags (bus : delivery) (m : method) (c : GPIOClient) :
  let c' := final (call bus m c) in
  (started c = true -> started c' = true) /\
  (streaming c = true -> streaming c' = true) /\
  readingTimeout c' = readingTimeout c /\ role c' = role c.
Proof.
  cbv zeta. each_method bus m c; cbn; auto.
Qed.

(** One call adds at most its own frame to the commands sent. *)
Lemma call_method_sent (bus : delivery) (m : method) (c : GPIOClient) :
  let c' := final (call bus m c) in
  sent c' = sent c \/
  exists pkt, frame m = Some pkt /\ sent c' = sent c ++ [pkt].
Proof.
  cbv zeta. each_method bus m c; cbn; eauto.
Qed.

(** A call that finds the pin count cached leaves its register alone. *)
Lemma call_method_numPins (bus : delivery) (m : method) (c : GPIOClient) :
  hasValues (_numPins c) = true ->
  _numPins (final (call bus m c)) = _numPins c.
Proof.
  intros Hv. each_method bus m c; cbn [_numPins with_reading with_streaming
    with_sent]; auto using gated_numPins_settled.
Qed.

(** A call on a connected client returns, unless its label is rejected,
    and sends exactly its frame. *)
Lemma call_method_connected (bus : delivery) (m : method) (c : GPIOClient) :
  hasValues (_numPins c) = true ->
  labels_packable packable [(bus, m)] = true ->
  exists c',
    call bus m c = Returned tt c' /\
    sent c' = sent c ++ frames_of OutputHigh OutputLow [(bus, m)] /\
    hasValues (_numPins c') = true.
Proof.
  intros Hv Hl.
  assert (Hk : numPins_known bus c = true)
    by (unfold numPins_known; now rewrite Hv).
  assert (Hg : hasValues (_numPins (gated bus c)) = true)
    by now rewrite gated_hasValues.
  cbn [frames_of].
  each_method bus m c;
    cbn [labels_packable forallb snd] in Hl; rewrite ?andb_true_r in Hl;
    try congruence;
    eexists; (split; [ reflexivity | ]);
    cbn [frame_of sent _numPins with_sent with_reading with_streaming];
    rewrite ?app_nil_r; auto.
Qed.

Lemma run_session_final_cons (bus : delivery) (m : method)
    (calls : list (delivery * method)) (c : GPIOClient) :
  final (run ((bus, m) :: calls) c) =
  match call bus m c with
  | Returned _ c1 => final (run calls c1)
  | Blocked c1 | Rejected c1 => c1
  end.
Proof.
  subst run call. cbn [run_session]. unfold bind.
  now destruct (call_method _ _ _ bus m c).
Qed.

(** A relation between clients that holds across every single call holds
    across every session. *)
Lemma run_session_preserves (R : GPIOClient -> GPIOClient -> Prop) :
  (forall c, R c c) ->
  (forall c1 c2 c3, R c1 c2 -> R c2 c3 -> R c1 c3) ->
  (forall bus m c, R c (final (call bus m c))) ->
  forall calls c, R c (final (run calls c)).
Proof.
  intros Hrefl Htrans Hstep calls.
  induction calls as [ | [bus m] calls IH ]; intros c; [ apply Hrefl | ].
  rewrite run_session_final_cons.
  pose proof (Hstep bus m c) as Hc.
  destruct (call bus m c) as [[] c1 | c1 | c1]; cbn [final] in Hc;
    [ | exact Hc | exact Hc ].
  exact (Htrans _ _ _ Hc (IH c1)).
Qed.

Lemma run_session_sent_length (calls : list (delivery * method))
    (c : GPIOClient) :
  (length (sent (final (run calls c)))
   <= length (sent c) + length (frames_of OutputHigh OutputLow calls))%nat.
Proof.
  revert c. induction calls as [ | [bus m] calls IH ]; intros c;
    [ cbn; lia | ].
  rewrite run_session_final_cons. cbn [frames_of].
  assert (Hstep : (length (sent (final (call bus m c)))
                   <= length (sent c)
                      + match frame m with Some _ => 1 | None => 0 end)%nat).
  { destruct (call_method_sent bus m c) as [-> | (pkt & -> & ->)];
      [ lia | rewrite length_app; cbn; lia ]. }
  subst frame.
  destruct (call bus m c) as [[] c1 | c1 | c1]; cbn [final] in Hstep.
  - specialize (IH c1).
    destruct (frame_of _ _ m); cbn [length] in *; lia.
  - destruct (frame_of _ _ m); cbn [length] in *; lia.
  - destruct (frame_of _ _ m); cbn [length] in *; lia.
Qed.

(** A call that does not read the state register leaves that register
    and the streaming switch alone. *)
Lemma call_method_reading (bus : delivery) (m : method) (c : GPIOClient) :
  reads_state m = false ->
  let c' := final (call bus m c) in
  _reading c' = _reading c /\ streaming c' = streaming c.
Proof.
  intros Hm. cbv zeta. each_method bus m c; try discriminate; cbn; auto.
Qed.

(** The frame of a call is bytes, of the length its opcode asks for. *)
Lemma frame_of_wf (m : method) (pkt : JDPacket) :
  frame m = Some pkt -> wf_packet pkt.
Proof.
  subst frame. unfold wf_packet.
  destruct m; cbn [frame_of]; intros [= <-]; cbn;
    (split; [ | reflexivity || exact I ]);
    auto using jdpack_string_bytes, mod_256_is_byte.
Qed.

End SessionFacts.

(** What [state()] and [digitalRead] hand back depends on the client only
    through the reading register and the reading timeout. *)
Lemma read_path_value_frame (bus : delivery) (pin : Z) (c1 c2 : GPIOClient) :
  _reading c1 = _reading c2 ->
  readingTimeout c1 = readingTimeout c2 ->
  value_of (state bus c1) = value_of (state bus c2) /\
  value_of (digitalRead bus pin c1) = value_of (digitalRead bus pin c2).
Proof.
  intros Hr Ht.
  destruct (state_returns bus c1) as (r1 & Hw1 & Hst1).
  destruct (state_returns bus c2) as (r2 & Hw2 & Hst2).
  rewrite Hr, Ht, Hw2 in Hw1. injection Hw1 as _ <-.
  rewrite (digitalRead_of_state _ _ _ _ _ Hst1),
    (digitalRead_of_state _ _ _ _ _ Hst2), Hst1, Hst2.
  split; reflexivity.
Qed.

(** X5. A write is not reflected in what is read: [numPins] and the
    command methods ([configure], [digitalWrite], [requestPinInfo],
    [requestPinByLabel], [requestPinByHwPin]) leave the reading register
    and the streaming switch as they are, so [state()] and [digitalRead]
    called next hand back what they would have handed back without the
    call. *)
Theorem command_leaves_reading (OutputHigh OutputLow : Z)
    (packable : string -> bool) (bus : delivery) (m : method)
    (c : GPIOClient) :
  reads_state m = false ->
  let c' := final (call_method OutputHigh OutputLow packable bus m c) in
  _reading c' = _reading c /\ streaming c' = streaming c /\
  forall bus' pin,
    value_of (state bus' c') = value_of (state bus' c) /\
    value_of (digitalRead bus' pin c') = value_of (digitalRead bus' pin c).
Proof.
  intros Hm. cbv zeta.
  destruct (call_method_reading OutputHigh OutputLow packable bus m c Hm)
    as [Hr Hs].
  destruct (call_method_flags OutputHigh OutputLow packable bus m c)
    as (_ & _ & Ht & _).
  split; [ exact Hr | split; [ exact Hs | ] ].
  intros bus' pin. now apply read_path_value_frame.
Qed.

(** Pin 2 is high in the cached bitmask; writing it low sends the frame
    and the next read still says high. *)
Lemma command_leaves_reading_witness :
  let c := final (state (Report 10 [5]) Sample.gpio1) in
  let write :=
    call_method Sample.OutputHigh Sample.OutputLow Sample.fits
      (Report 1 [4]) (CallDigitalWrite 2 false) in
  sent (final (write c)) = [JDPacket_from Configure [2; Sample.OutputLow]] /\
  value_of (digitalRead Silent 2 (final (write c))) = Some true.
Proof.
  intros c write. split; [ reflexivity | ].
  destruct (command_leaves_reading Sample.OutputHigh Sample.OutputLow
              Sample.fits (Report 1 [4]) (CallDigitalWrite 2 false) c eq_refl)
    as (_ & _ & Hread).
  destruct (Hread Silent 2) as [_ Hrd].
  exact (eq_trans Hrd eq_refl).
Defined.

(** X6. On a client that knows the pin count, a session whose labels are
    all accepted runs to its end, whatever the bus does, and the commands
    it sends are the frames of its command calls, one per call and in call
    order; [state], [digitalRead] and [numPins] send none. *)
Theorem session_sends_in_call_order (OutputHigh OutputLow : Z)
    (packable : string -> bool) (calls : list (delivery * method))
    (c : GPIOClient) :
  hasValues (_numPins c) = true ->
  labels_packable packable calls = true ->
  exists c',
    run_session OutputHigh OutputLow packable calls c = Returned tt c' /\
    sent c' = sent c ++ frames_of OutputHigh OutputLow calls.
Proof.
  revert c. induction calls as [ | [bus m] calls IH ]; intros c Hv Hl.
  - exists c. split; [ reflexivity | now rewrite app_nil_r ].
  - cbn [labels_packable forallb] in Hl.
    apply andb_true_iff in Hl as [Hm Hrest].
    destruct (call_method_connected OutputHigh OutputLow packable bus m c Hv)
      as (c1 & Hcall & Hsent & Hv1).
    { cbn [labels_packable forallb]. now rewrite Hm. }
    destruct (IH c1 Hv1 Hrest) as (c' & Hrun & Hsent').
    exists c'. cbn [run_session]. unfold bind. rewrite Hcall.
    split; [ exact Hrun | ].
    rewrite Hsent', Hsent, <- app_assoc. f_equal.
    cbn [frames_of]. now destruct (frame_of _ _ m).
Qed.

(** Two writes around a read on a silent bus: two frames, in order. *)
Lemma session_sends_in_call_order_witness :
  let c := gated (Report 1 [4]) Sample.gpio1 in
  exists c',
    run_session Sample.OutputHigh Sample.OutputLow Sample.fits
      [ (Silent, CallDigitalWrite 1 true);
        (Silent, CallDigitalRead 1);
        (Silent, CallRequestPinByLabel "A0");
        (Silent, CallDigitalWrite 1 false) ] c
    = Returned tt c' /\
    sent c' = [ JDPacket_from Configure [1; Sample.OutputHigh];
                JDPacket_from PinByLabel [65; 48];
                JDPacket_from Configure [1; Sample.OutputLow] ].
Proof.
  intros c.
  destruct (session_sends_in_call_order Sample.OutputHigh Sample.OutputLow
              Sample.fits
              [ (Silent, CallDigitalWrite 1 true);
                (Silent, CallDigitalRead 1);
                (Silent, CallRequestPinByLabel "A0");
                (Silent, CallDigitalWrite 1 false) ] c eq_refl eq_refl)
    as (c' & Hrun & Hsent).
  exists c'. split; [ exact Hrun | exact Hsent ].
Defined.

(** X7. Whatever the calls of a session and whatever the bus does, the
    client never takes back a command (the commands sent before are a
    prefix of those sent after), sends at most one frame per command call,
    never stops the connection or the streaming once on, and never changes
    its reading timeout or its role. *)
Theorem session_invariants (OutputHigh OutputLow : Z)
    (packable : string -> bool) (calls : list (delivery * method))
    (c : GPIOClient) :
  let c' := final (run_session OutputHigh OutputLow packable calls c) in
  sent c `prefix_of` sent c' /\
  (length (sent c')
   <= length (sent c) + length (frames_of OutputHigh OutputLow calls))%nat /\
  (started c = true -> started c' = true) /\
  (streaming c = true -> streaming c' = true) /\
  readingTimeout c' = readingTimeout c /\ role c' = role c.
Proof.
  cbv zeta. split; [ | split; [ apply run_session_sent_length | ] ].
  - revert calls c.
    apply (run_session_preserves OutputHigh OutputLow packable
             (fun c c' => sent c `prefix_of` sent c')).
    + reflexivity.
    + intros c1 c2 c3. apply transitivity.
    + intros bus m c.
      destruct (call_method_sent OutputHigh OutputLow packable bus m c)
        as [-> | (pkt & _ & ->)]; [ reflexivity | now apply prefix_app_r ].
  - revert calls c.
    apply (run_session_preserves OutputHigh OutputLow packable
             (fun c c' =>
                (started c = true -> started c' = true) /\
                (streaming c = true -> streaming c' = true) /\
                readingTimeout c' = readingTimeout c /\ role c' = role c)).
    + intros c. auto.
    + intros c1 c2 c3 (Hs & Hst & Ht & Hr) (Hs' & Hst' & Ht' & Hr').
      repeat split; [ auto | auto | congruence | congruence ].
    + intros bus m c. apply call_method_flags.
Qed.

(** A client that streams and has sent one command, then a session of
    two commands and a read: streaming and the connection stay on, the
    first command stays first, and at most two more are sent. *)
Lemma session_invariants_witness :
  let c := final (configure (Report 1 [4]) 1 2
                    (final (state Silent Sample.gpio1))) in
  let c' :=
    final (run_session Sample.OutputHigh Sample.OutputLow Sample.fits
             [ (Silent, CallRequestPinInfo 1);
               (Silent, CallRequestPinByLabel "A0");
               (Silent, CallState) ] c) in
  streaming c' = true /\ started c' = true /\
  sent c `prefix_of` sent c' /\ (length (sent c') <= 3)%nat.
Proof.
  intros c c'.
  destruct (session_invariants Sample.OutputHigh Sample.OutputLow Sample.fits
              [ (Silent, CallRequestPinInfo 1);
                (Silent, CallRequestPinByLabel "A0");
                (Silent, CallState) ] c)
    as (Hprefix & Hlen & Hstarted & Hstreaming & _).
  split; [ apply Hstreaming; reflexivity | ].
  split; [ apply Hstarted; reflexivity | ].
  split; [ exact Hprefix | exact Hlen ].
Defined.

(** X8. The pin count is cached for good: once [_numPins] has a value, no
    call of any method changes the register, whatever the device reports
    later. *)
Theorem session_keeps_numPins (OutputHigh OutputLow : Z)
    (packable : string -> bool) (calls : list (delivery * method))
    (c : GPIOClient) :
  hasValues (_numPins c) = true ->
  _numPins (final (run_session OutputHigh OutputLow packable calls c))
  = _numPins c.
Proof.
  revert calls c.
  apply (run_session_preserves OutputHigh OutputLow packable
           (fun c c' =>
              hasValues (_numPins c) = true -> _numPins c' = _numPins c)).
  - reflexivity.
  - intros c1 c2 c3 H12 H23 Hv.
    rewrite <- (H12 Hv). apply H23. now rewrite (H12 Hv).
  - intros bus m c. apply call_method_numPins.
Qed.

(** The device first reports four pins, later nine: the client keeps
    four. *)
Lemma session_keeps_numPins_witness :
  let c := gated (Report 1 [4]) Sample.gpio1 in
  let c' :=
    final (run_session Sample.OutputHigh Sample.OutputLow Sample.fits
             [ (Report 1 [9], CallConfigure 0 1);
               (Report 1 [9], CallNumPins) ] c) in
  value_of (numPins (Report 1 [9]) c') = Some (Some 4).
Proof.
  intros c c'.
  assert (Hreg : _numPins c' = _numPins c)
    by (apply (session_keeps_numPins Sample.OutputHigh Sample.OutputLow
                 Sample.fits _ c); reflexivity).
  rewrite numPins_outcome. unfold numPins_known, gated at 1 2.
  cbn [_numPins with_numPins with_started].
  rewrite Hreg. reflexivity.
Defined.

(** X9. Every frame a session adds to the commands sent is well formed:
    its payload is bytes, two of them on [Configure] and one on [PinInfo]
    and [PinByHwPin]. *)
Theorem session_frames_well_formed (OutputHigh OutputLow : Z)
    (packable : string -> bool) (calls : list (delivery * method))
    (c : GPIOClient) (pkt : JDPacket) :
  pkt ∈ sent (final (run_session OutputHigh OutputLow packable calls c)) ->
  pkt ∈ sent c \/ wf_packet pkt.
Proof.
  revert pkt. revert calls c.
  apply (run_session_preserves OutputHigh OutputLow packable
           (fun c c' => forall pkt, pkt ∈ sent c' -> pkt ∈ sent c \/ wf_packet pkt)).
  - intros c pkt Hin. now left.
  - intros c1 c2 c3 H12 H23 pkt Hin.
    destruct (H23 pkt Hin) as [Hin2 | Hwf]; [ | now right ].
    now apply H12.
  - intros bus m c pkt.
    destruct (call_method_sent OutputHigh OutputLow packable bus m c)
      as [-> | (new & Hframe & ->)]; [ now left | ].
    rewrite elem_of_app, list_elem_of_singleton.
    intros [Hin | ->]; [ now left | right ].
    eapply frame_of_wf. exact Hframe.
Qed.

(** On a new client every frame sent is well formed, also with arguments
    that are not bytes. *)
Lemma session_frames_well_formed_witness :
  let c' :=
    final (run_session Sample.OutputHigh Sample.OutputLow Sample.fits
             [ (Report 1 [4], CallConfigure 300 (-1));
               (Silent, CallRequestPinByHwPin 256) ] Sample.gpio1) in
  sent c' = [ JDPacket_from Configure [44; 255];
              JDPacket_from PinByHwPin [0] ] /\
  Forall wf_packet (sent c').
Proof.
  intros c'. split; [ reflexivity | ].
  apply Forall_forall. intros pkt Hin.
  destruct (session_frames_well_formed Sample.OutputHigh Sample.OutputLow
              Sample.fits _ Sample.gpio1 pkt Hin) as [Hold | Hwf];
    [ | exact Hwf ].
  cbn in Hold. now apply elem_of_nil in Hold.
Defined.

(** X10. The device tells two [configure] calls apart exactly when their
    arguments differ modulo 256: from the same client, with the gate
    resolving, [configure(pin, mode)] and [configure(pin', mode')] have the
    same outcome if and only if [pin] and [pin'], and [mode] and [mode'],
    leave the same remainder. *)
Theorem configure_same_frame (bus : delivery) (pin mode pin' mode' : Z)
    (c : GPIOClient) :
  numPins_known bus c = true ->
  configure bus pin mode c = configure bus pin' mode' c <->
  pin mod 256 = pin' mod 256 /\ mode mod 256 = mode' mod 256.
Proof.
  intros Hk. rewrite !configure_outcome, Hk. split.
  - intros [= Hsent].
    apply app_inv_head in Hsent. now injection Hsent.
  - now intros [-> ->].
Qed.

(** Pins 3 and 259 are one pin to the device; pins 3 and 4 are not. *)
Lemma configure_same_frame_witness :
  configure (Report 1 [4]) 259 1 Sample.gpio1
  = configure (Report 1 [4]) 3 1 Sample.gpio1 /\
  configure (Report 1 [4]) 4 1 Sample.gpio1
  <> configure (Report 1 [4]) 3 1 Sample.gpio1.
Proof.
  split.
  - apply (configure_same_frame (Report 1 [4]) 259 1 3 1 Sample.gpio1);
      [ reflexivity | split; reflexivity ].
  - intros Heq.
    apply (configure_same_frame (Report 1 [4]) 4 1 3 1 Sample.gpio1) in Heq;
      [ | reflexivity ].
    destruct Heq as [Hpin _]. discriminate Hpin.
Defined.

(** * Failure paths of the operations *)



